(** * Access control of the natours booking API

    A shallow embedding of
    - [middleware/restrictTo] (the role guard),
    - [controllers/booking.controller] ([getBookingHandler],
      [getMyBookingsHandler]),
    - [services/user.service] ([createUser], [checkPassword]),
    and the properties of the access-control specification that
    hold of them.

    Express handlers are written in a state-and-exception monad over the
    request-scoped objects they touch ([res], the [next] continuation,
    the logger) and the database snapshot the services read. *)

From Stdlib Require Import ZArith String List Bool.
From stdpp Require Import base option strings gmap list.

Local Open Scope string_scope.
Local Open Scope Z_scope.

(** ** JavaScript values *)

(** A BSON [ObjectId], identified with the hexadecimal string that its
    [toString()] returns. *)
Record ObjectId : Type := mkObjectId { toHexString : string }.

Definition ObjectId_toString (o : ObjectId) : string := toHexString o.

(** The primitive and id values that occur as document fields. *)
Inductive JsVal : Type :=
| JsUndefined
| JsNull
| JsBool (b : bool)
| JsNumber (n : Z)
| JsString (s : string)
| JsObjectId (o : ObjectId)
| JsFunction (name : string).

(** A plain JavaScript object used as a record of fields. *)
Abbreviation JsObject := (gmap string JsVal).

(** The value found at [res.locals.user._id].  [getBookingHandler]
    annotates it as [string]; [restrictTo] casts the same
    [res.locals.user] to [IUserDocument] and [getUser] takes user ids as
    [Types.ObjectId], so both representations are values the slot can
    hold ([res.locals] is untyped). *)
Inductive UserId : Type :=
| IdString (s : string)
| IdObject (o : ObjectId).

(** [a === b] for a string [a]: strict equality never converts, so a
    string is equal only to a string with the same characters. *)
Definition strict_eq_string (a : string) (b : UserId) : bool :=
  match b with
  | IdString s => String.eqb a s
  | IdObject _ => false
  end.

(** The user that an id value denotes: a string denotes the ObjectId
    whose hexadecimal form it is. *)
Definition denotes (uid : UserId) (o : ObjectId) : Prop :=
  match uid with
  | IdString s => s = toHexString o
  | IdObject o' => o' = o
  end.

(** ** Errors *)

(** Modelled from the spec: [utils/AppError.utils] is missing from the
    sources; the spec describes the typed error object handed to the
    error responder as [{statusCode, message}].  [AppError] is a subclass
    of [Error]. *)
Record AppError : Type := mkAppError { statusCode : Z; message : string }.

(** Values that can be thrown or passed to [next]. *)
Inductive Thrown : Type :=
| ThrownError (name : string) (msg : string)   (* an Error that is not an AppError *)
| ThrownAppError (e : AppError)
| ThrownValue (v : JsVal).                     (* anything that is not an Error *)

(** [err instanceof Error] *)
Definition instanceofError (err : Thrown) : bool :=
  match err with
  | ThrownError _ _ => true
  | ThrownAppError _ => true
  | ThrownValue _ => false
  end.

(** [err.message], for an [Error] *)
Definition err_message (err : Thrown) : string :=
  match err with
  | ThrownError _ m => m
  | ThrownAppError e => message e
  | ThrownValue _ => ""
  end.

(** The settlement of an awaited promise, or the completion of a
    block: a value or a thrown exception. *)
Inductive Result (A : Type) : Type :=
| Ok (a : A)
| Throw (e : Thrown).
Arguments Ok {A} a.
Arguments Throw {A} e.

(** ** Documents *)

(** [IUserDocument] as the guards read it from [res.locals.user]. *)
Record CurrentUser : Type := mkCurrentUser {
  user_id : UserId;      (* res.locals.user._id  *)
  user_role : string     (* res.locals.user.role *)
}.

(** [IBookingDocument]: the controller reads [booking.user._id] only;
    the remaining fields are carried along untouched. *)
Record Booking : Type := mkBooking {
  booking_id : ObjectId;
  booking_user_id : ObjectId;      (* booking.user._id *)
  booking_fields : list (string * JsVal)
}.

(** The argument of [res.json]. *)
#[warnings="-register-all"]
Inductive Payload : Type :=
| PString (s : string)
| PNumber (n : Z)
| PBooking (b : Booking)
| PArray (l : list Payload)
| PObject (fields : list (string * Payload)).

(** ** Request, response and the external collaborators *)

Record Request : Type := mkRequest {
  req_params : gmap string string;
  req_query : gmap string string;
  req_body : JsObject
}.

Record Response : Type := mkResponse {
  res_statusCode : Z;
  res_body : option Payload;      (* what [res.json] has sent, if anything *)
  res_locals_user : CurrentUser   (* res.locals.user, after requireUser *)
}.

(** What [services/booking.service] answers on the current database:
    [getBooking({_id})] and [getMyBookings(userId)].  Both are awaited,
    so both may reject. *)
Record BookingService : Type := mkBookingService {
  svc_getBooking : option string -> Result (option Booking);
  svc_getMyBookings : UserId -> Result (list Booking)
}.

(** Everything a handler can read or write. *)
Record St : Type := mkSt {
  st_res : Response;
  st_next : list (option Thrown);   (* the calls of [next], oldest first *)
  st_log : list Thrown;             (* what [logger.info] received *)
  st_db : BookingService
}.

(** ** The handler monad *)

Definition M (A : Type) : Type := St -> St * Result A.

Definition ret {A} (a : A) : M A := fun s => (s, Ok a).

Definition bind {A B} (m : M A) (k : A -> M B) : M B :=
  fun s =>
    match m s with
    | (s', Ok a) => k a s'
    | (s', Throw e) => (s', Throw e)
    end.

Definition throw {A} (e : Thrown) : M A := fun s => (s, Throw e).

(** [try { body } catch (e) { handler e }]: the writes of [body] up to the
    exception stay. *)
Definition try_catch {A} (body : M A) (handler : Thrown -> M A) : M A :=
  fun s =>
    match body s with
    | (s', Ok a) => (s', Ok a)
    | (s', Throw e) => handler e s'
    end.

(** [await p] *)
Definition await {A} (p : St -> Result A) : M A :=
  fun s => (s, p s).

Declare Scope js_scope.
Delimit Scope js_scope with js.
Notation "x <- m ;; k" := (bind m (fun x => k))
  (at level 100, m at next level, right associativity) : js_scope.
Notation "m ;; k" := (bind m (fun _ => k))
  (at level 100, right associativity) : js_scope.
Local Open Scope js_scope.

Definition set_res (f : Response -> Response) (s : St) : St :=
  mkSt (f (st_res s)) (st_next s) (st_log s) (st_db s).

(** [res.locals.user] *)
Definition locals_user : M CurrentUser :=
  fun s => (s, Ok (res_locals_user (st_res s))).

(** [res.status(code)] *)
Definition res_status (code : Z) : M unit :=
  fun s =>
    (set_res (fun r => mkResponse code (res_body r) (res_locals_user r)) s,
     Ok tt).

(** [res.json(body)] *)
Definition res_json (body : Payload) : M unit :=
  fun s =>
    (set_res (fun r => mkResponse (res_statusCode r) (Some body)
                                  (res_locals_user r)) s,
     Ok tt).

(** [next(err)] and [next()] *)
Definition next (arg : option Thrown) : M unit :=
  fun s => (mkSt (st_res s) (st_next s ++ [arg]) (st_log s) (st_db s), Ok tt).

(** [logger.info(err)] *)
Definition logger_info (err : Thrown) : M unit :=
  fun s => (mkSt (st_res s) (st_next s) (st_log s ++ [err]) (st_db s), Ok tt).

(** [await getBooking({ _id })] *)
Definition getBooking (_id : option string) : M (option Booking) :=
  await (fun s => svc_getBooking (st_db s) _id).

(** [await getMyBookings(userId)] *)
Definition getMyBookings (userId : UserId) : M (list Booking) :=
  await (fun s => svc_getMyBookings (st_db s) userId).

(** ** middleware/restrictTo *)

(** [roles.includes(role)] on an array of role names *)
Fixpoint includes (roles : list string) (role : string) : bool :=
  match roles with
  | [] => false
  | r :: rest => String.eqb r role || includes rest role
  end.

(** [roles.join(sep)] *)
Fixpoint join (sep : string) (roles : list string) : string :=
  match roles with
  | [] => ""
  | r :: rest =>
      match rest with
      | [] => r
      | _ :: _ => r +:+ sep +:+ join sep rest
      end
  end.

Definition restrictTo_message (roles : list string) : string :=
  "Unauthorized - You don't have permissions. Access restricted to "
    +:+ join ", " roles +:+ ".".

Definition restrictTo (roles : list string) (req : Request) : M unit :=
  currentUser <- locals_user ;;
  let currentUserRole := user_role currentUser in
  if negb (includes roles currentUserRole) then
    next (Some (ThrownAppError (mkAppError 403 (restrictTo_message roles))))
  else
    next None.

(** ** controllers/booking.controller *)

Definition booking_not_found : AppError :=
  mkAppError 404 "Booking not found".

Definition booking_forbidden : AppError :=
  mkAppError 403
    "You can only check a booking that you booked yourself, or you need to be Admin".

(** [{ status: 'success', data: { booking } }] *)
Definition booking_payload (booking : Booking) : Payload :=
  PObject [("status", PString "success");
           ("data", PObject [("booking", PBooking booking)])].

(** [{ status: 'success', dataCount: bookings?.length, data: { bookings } }] *)
Definition bookings_payload (bookings : list Booking) : Payload :=
  PObject [("status", PString "success");
           ("dataCount", PNumber (Z.of_nat (length bookings)));
           ("data", PObject [("bookings", PArray (map PBooking bookings))])].

(** [currentUserRole === 'admin'] *)
Definition userIsAdmin (currentUserRole : string) : bool :=
  String.eqb currentUserRole "admin".

(** [booking.user._id.toString() === currentUserId] *)
Definition userIsBooker (booking : Booking) (currentUserId : UserId) : bool :=
  strict_eq_string (ObjectId_toString (booking_user_id booking)) currentUserId.

Definition getBookingHandler (req : Request) : M unit :=
  try_catch
    (let bookingId := req_params req !! "bookingId" in
     user <- locals_user ;;
     let currentUserId := user_id user in
     let currentUserRole := user_role user in
     booking <- getBooking bookingId ;;
     match booking with
     | None => next (Some (ThrownAppError booking_not_found))
     | Some booking =>
         if negb (userIsAdmin currentUserRole)
            && negb (userIsBooker booking currentUserId)
         then next (Some (ThrownAppError booking_forbidden))
         else (res_status 200 ;; res_json (booking_payload booking))
     end)
    (fun error => logger_info error ;; next (Some error)).

Definition getMyBookingsHandler (req : Request) : M unit :=
  try_catch
    (user <- locals_user ;;
     let userId := user_id user in
     bookings <- getMyBookings userId ;;
     res_status 200 ;;
     res_json (bookings_payload bookings))
    (fun err => logger_info err ;; next (Some err)).

(** ** services/user.service *)

#[export] Instance Result_ret : MRet Result := fun _ a => Ok a.
#[export] Instance Result_bind : MBind Result := fun _ _ k m =>
  match m with
  | Ok a => k a
  | Throw e => Throw e
  end.

(** [try { body } catch (err) { handler err }] for a computation without
    state. *)
Definition catch {A} (body : Result A) (handler : Thrown -> Result A)
  : Result A :=
  match body with
  | Ok a => Ok a
  | Throw err => handler err
  end.

(** A mongoose user document: its stored fields and the
    [comparePassword] instance method of the schema. *)
Record UserDocument : Type := mkUserDocument {
  doc_fields : JsObject;
  doc_comparePassword : string -> Result bool
}.

(** [doc.toJSON()] *)
Definition toJSON (doc : UserDocument) : JsObject := doc_fields doc.

(** lodash [omit(object, key)] *)
Definition omit (object : JsObject) (key : string) : JsObject :=
  delete key object.

(** [doc.toObject({ transform })] *)
Definition toObject (transform : UserDocument -> JsObject -> JsObject)
    (doc : UserDocument) : JsObject :=
  transform doc (doc_fields doc).

Section UserService.
(** The mongoose model [User]. *)
Variable User_create : JsObject -> Result UserDocument.
Variable User_findOne : string -> Result (option UserDocument).

Definition createUser (inputData : JsObject) : Result JsObject :=
  catch
    (newUser ← User_create inputData;
     mret (omit (toJSON newUser) "password"))
    (fun err =>
       if instanceofError err
       then Throw (ThrownAppError (mkAppError 409 (err_message err)))
       else Throw err).

Definition checkPassword (email password : string)
  : Result (option JsObject) :=
  user ← User_findOne email;
  match user with
  | None => mret None
  | Some user =>
      isValid ← doc_comparePassword user password;
      if negb isValid then mret None
      else
        let userWithoutPassword :=
          toObject (fun doc ret =>
                      let ret := delete "password" ret in
                      let ret := delete "comparePassword" ret in
                      ret) user in
        mret (Some userWithoutPassword)
  end.
End UserService.

(** * What a run leaves behind *)

(** The state in which Express hands a request to the first handler:
    nothing sent, status 200, [next] not called yet. *)
Definition fresh (user : CurrentUser) (db : BookingService) : St :=
  mkSt (mkResponse 200 None user) [] [] db.

(** The state after [m] has run from [s]. *)
Definition run {A} (m : M A) (s : St) : St := fst (m s).

(** The handler passed the typed error [e] to the error responder and
    sent nothing. *)
Definition forwarded (user : CurrentUser) (db : BookingService)
    (e : AppError) : St :=
  mkSt (mkResponse 200 None user) [Some (ThrownAppError e)] [] db.

(** The handler answered [code] with the JSON [body] and did not call
    [next]. *)
Definition responded (user : CurrentUser) (db : BookingService)
    (code : Z) (body : Payload) : St :=
  mkSt (mkResponse code (Some body) user) [] [] db.

(** The guard called [next()] and so passed control on. *)
Definition passed (user : CurrentUser) (db : BookingService) : St :=
  mkSt (mkResponse 200 None user) [None] [] db.

(** [part] occurs in [msg]. *)
Definition contains (msg part : string) : Prop :=
  exists pre post, msg = pre +:+ part +:+ post.

(** Modelled from the spec: [getMyBookings] of [services/booking.service]
    is missing from the sources; the spec says that it "takes only the
    current user's id, implicitly filters to bookings owned by that
    user".  A service is scoped when every booking it returns for an id
    is owned by the user that the id denotes. *)
Definition getMyBookings_scoped (db : BookingService) : Prop :=
  forall (uid : UserId) (bookings : list Booking),
    svc_getMyBookings db uid = Ok bookings ->
    forall b, b ∈ bookings -> denotes uid (booking_user_id b).

(** ** Sample documents *)

Definition alice_id : ObjectId := mkObjectId "5c8a1d5b0190b214360dc057".
Definition bob_id : ObjectId := mkObjectId "5c8a1dfa2f8fb814b56fa181".

Definition alice_booking : Booking :=
  mkBooking (mkObjectId "5c8a34ed14eb5c17645c9108") alice_id
            [("price", JsNumber 497)].

Definition bob_booking : Booking :=
  mkBooking (mkObjectId "5c8a355b14eb5c17645c9109") bob_id
            [("price", JsNumber 997)].

Definition sample_bookings : list Booking := [alice_booking; bob_booking].

(** The owner of [b] is the user that [uid] denotes, as a query on the
    [user] path decides it. *)
Definition owned_by (uid : UserId) (b : Booking) : bool :=
  match uid with
  | IdString s => String.eqb s (toHexString (booking_user_id b))
  | IdObject o => String.eqb (toHexString o) (toHexString (booking_user_id b))
  end.

(** A database that holds [sample_bookings]. *)
Definition sample_db : BookingService :=
  mkBookingService
    (fun _id =>
       match _id with
       | Some id =>
           Ok (List.find
                 (fun b => String.eqb (toHexString (booking_id b)) id)
                 sample_bookings)
       | None => Ok None
       end)
    (fun uid => Ok (List.filter (owned_by uid) sample_bookings)).

(** A database whose connection is lost. *)
Definition failing_db : BookingService :=
  mkBookingService
    (fun _ => Throw (ThrownError "MongoNetworkError" "connection closed"))
    (fun _ => Throw (ThrownError "MongoNetworkError" "connection closed")).

Definition alice : CurrentUser :=
  mkCurrentUser (IdString "5c8a1d5b0190b214360dc057") "user".
Definition bob : CurrentUser :=
  mkCurrentUser (IdString "5c8a1dfa2f8fb814b56fa181") "user".
Definition admin : CurrentUser :=
  mkCurrentUser (IdString "5c8a22c62f8fb814b56fa18b") "admin".

(** The state that [restrictTo] leaves when it lets Bob pass, with a
    line already in the log. *)
Definition after_guard : St :=
  mkSt (mkResponse 200 None bob) [None] [ThrownValue JsNull] sample_db.

(** [GET /api/v1/bookings/5c8a34ed14eb5c17645c9108] *)
Definition alice_booking_request : Request :=
  mkRequest {[ "bookingId" := "5c8a34ed14eb5c17645c9108" ]} ∅ ∅.

(** [GET /api/v1/bookings/5c8a00000000000000000000] *)
Definition missing_booking_request : Request :=
  mkRequest {[ "bookingId" := "5c8a00000000000000000000" ]} ∅ ∅.

(** A request for my bookings that names Bob wherever a request can. *)
Definition injected_request : Request :=
  mkRequest {[ "userId" := "5c8a1dfa2f8fb814b56fa181" ]}
            {[ "user" := "5c8a1dfa2f8fb814b56fa181" ]}
            {[ "user" := JsString "5c8a1dfa2f8fb814b56fa181" ]}.

Definition empty_request : Request := mkRequest ∅ ∅ ∅.

(** A stored user and a [User] model that knows her only. *)
Definition jonas_document : UserDocument :=
  mkUserDocument
    {[ "email" := JsString "jonas@example.com";
       "name" := JsString "Jonas";
       "password" := JsString "$2a$12$Q0grHjH9PXc6SxivC8m12" ]}
    (fun password => Ok (String.eqb password "test1234")).

Definition sample_findOne (email : string) : Result (option UserDocument) :=
  if String.eqb email "jonas@example.com" then Ok (Some jonas_document)
  else Ok None.

(** [User.create] on a collection with a unique index on [email] that
    already holds the address. *)
Definition duplicate_create (inputData : JsObject) : Result UserDocument :=
  Throw (ThrownError "MongoServerError" "E11000 duplicate key error").

(** [User.create] with a hook that throws a string. *)
Definition string_throwing_create (inputData : JsObject)
  : Result UserDocument :=
  Throw (ThrownValue (JsString "boom")).

(** ** controllers/booking.controller: the other handlers *)

(** What [getAllBookingsHandler] reads besides the request:
    [res.locals.queryFilterByTourId], left by the middleware
    [setQueryFilterByTourId] ([undefined] when it did not run), and
    [getAllBookings] of [services/booking.service]. *)
Record ListingContext : Type := mkListingContext {
  locals_queryFilterByTourId : option JsObject;
  svc_getAllBookings :
    option JsObject -> gmap string string -> Result (list Booking)
}.

Definition getAllBookingsHandler (ctx : ListingContext) (req : Request)
  : M unit :=
  try_catch
    (let query := req_query req in
     let queryFilterByTourId := locals_queryFilterByTourId ctx in
     bookings <- await (fun _ =>
                   svc_getAllBookings ctx queryFilterByTourId query) ;;
     res_status 200 ;;
     res_json (bookings_payload bookings))
    (fun err => logger_info err ;; next (Some err)).

(** [getTour] of [services/tour.service] and [getStripeCheckoutSession]
    of [services/stripe.service], for whatever a tour document is. *)
Record CheckoutServices (Tour : Type) : Type := mkCheckoutServices {
  svc_getTour : option string -> Result (option Tour);
  svc_getStripeCheckoutSession :
    Request -> Tour -> CurrentUser -> Result Payload
}.
Arguments mkCheckoutServices {Tour} _ _.
Arguments svc_getTour {Tour} _ _.
Arguments svc_getStripeCheckoutSession {Tour} _ _ _ _.

Definition tour_not_found : AppError := mkAppError 404 "Tour not found".

(** [{ status: 'success', data: { stripeSession } }] *)
Definition stripe_payload (stripeSession : Payload) : Payload :=
  PObject [("status", PString "success");
           ("data", PObject [("stripeSession", stripeSession)])].

(** The handler has no [try]: what its awaits throw, it throws. *)
Definition getStripeCheckoutSessionHandler {Tour : Type}
    (svc : CheckoutServices Tour) (req : Request) : M unit :=
  let tourId := req_params req !! "tourId" in
  currentUser <- locals_user ;;
  tour <- await (fun _ => svc_getTour svc tourId) ;;
  match tour with
  | None => next (Some (ThrownAppError tour_not_found))
  | Some tour =>
      stripeSession <- await (fun _ =>
                         svc_getStripeCheckoutSession svc req tour currentUser) ;;
      res_status 200 ;;
      res_json (stripe_payload stripeSession)
  end.

(** [object[key]] on the argument of [res.json] *)
Definition payload_field (key : string) (p : Payload) : option Payload :=
  match p with
  | PObject fields =>
      match List.find (fun kv => String.eqb (fst kv) key) fields with
      | Some kv => Some (snd kv)
      | None => None
      end
  | _ => None
  end.

(** ** Sample collaborators of the other handlers *)

(** [GET /api/v1/tours/5c88fa8cf4afda39709c2955/bookings?sort=price],
    after [setQueryFilterByTourId]. *)
Definition tour_listing : ListingContext :=
  mkListingContext
    (Some {[ "tour" := JsString "5c88fa8cf4afda39709c2955" ]})
    (fun _ _ => Ok sample_bookings).

Definition failing_listing : ListingContext :=
  mkListingContext None
    (fun _ _ => Throw (ThrownError "MongoNetworkError" "connection closed")).

Definition sorted_request : Request :=
  mkRequest ∅ {[ "sort" := "price" ]} ∅.

(** A tour service that knows one tour, and a Stripe that answers with
    the id of a session. *)
Definition sample_checkout : CheckoutServices string :=
  mkCheckoutServices
    (fun tourId =>
       match tourId with
       | Some id =>
           if String.eqb id "5c88fa8cf4afda39709c2955"
           then Ok (Some "The Sea Explorer") else Ok None
       | None => Ok None
       end)
    (fun _ _ _ => Ok (PObject [("id", PString "cs_test_a1")])).

(** The same tours, with Stripe unreachable. *)
Definition stripe_down_checkout : CheckoutServices string :=
  mkCheckoutServices
    (svc_getTour sample_checkout)
    (fun _ _ _ => Throw (ThrownError "StripeConnectionError" "timeout")).

Definition sea_explorer_request : Request :=
  mkRequest {[ "tourId" := "5c88fa8cf4afda39709c2955" ]} ∅ ∅.

Definition unknown_tour_request : Request :=
  mkRequest {[ "tourId" := "5c88fa8cf4afda3970000000" ]} ∅ ∅.

(** A request for Alice's booking with a query and a body besides. *)
Definition noisy_booking_request : Request :=
  mkRequest {[ "bookingId" := "5c8a34ed14eb5c17645c9108" ]}
            {[ "user" := "5c8a1dfa2f8fb814b56fa181" ]}
            {[ "role" := JsString "admin" ]}.

(** A [User] model that stores what it is given. *)
Definition storing_create (inputData : JsObject) : Result UserDocument :=
  Ok (mkUserDocument inputData (fun _ => Ok false)).

Definition signup_input : JsObject :=
  {[ "email" := JsString "jonas@example.com";
     "name" := JsString "Jonas";
     "password" := JsString "test1234" ]}.

(** A [User] model whose connection is lost. *)
Definition failing_findOne (email : string) : Result (option UserDocument) :=
  Throw (ThrownError "MongoNetworkError" "connection closed").

(** * Properties *)

(** ** Strings and arrays *)

Lemma append_nil_r (s : string) : s +:+ "" = s.
Proof.
  induction s as [|c s IH]; [reflexivity|].
  change (String c (s +:+ "") = String c s). by rewrite IH.
Qed.

Lemma append_assoc (a b c : string) : (a +:+ b) +:+ c = a +:+ (b +:+ c).
Proof.
  induction a as [|x a IH]; [reflexivity|].
  change (String x ((a +:+ b) +:+ c) = String x (a +:+ b +:+ c)).
  by rewrite IH.
Qed.

Lemma contains_refl (s : string) : contains s s.
Proof. exists "", "". by rewrite append_nil_r. Qed.

Lemma contains_append_l (pre msg part : string) :
  contains msg part -> contains (pre +:+ msg) part.
Proof.
  intros (p & q & ->). exists (pre +:+ p), q. by rewrite append_assoc.
Qed.

Lemma contains_append_r (msg post part : string) :
  contains msg part -> contains (msg +:+ post) part.
Proof.
  intros (p & q & ->). exists p, (q +:+ post). by rewrite !append_assoc.
Qed.

Lemma includes_spec (roles : list string) (role : string) :
  includes roles role = true <-> role ∈ roles.
Proof.
  induction roles as [|r rest IH]; simpl.
  - split; [done|]. by intros ?%elem_of_nil.
  - rewrite orb_true_iff, IH, elem_of_cons, String.eqb_eq.
    split; intros [->|?]; auto.
Qed.

Lemma join_cons_cons (sep r r' : string) (rest : list string) :
  join sep (r :: r' :: rest) = r +:+ sep +:+ join sep (r' :: rest).
Proof. reflexivity. Qed.

Lemma join_contains (sep : string) (roles : list string) (role : string) :
  role ∈ roles -> contains (join sep roles) role.
Proof.
  induction roles as [|r rest IH]; [by intros ?%elem_of_nil|].
  destruct rest as [|r' rest].
  - intros ->%list_elem_of_singleton. apply contains_refl.
  - rewrite join_cons_cons. intros [->|Hin]%elem_of_cons.
    + apply contains_append_r, contains_refl.
    + by apply contains_append_l, contains_append_l, IH.
Qed.

Lemma restrictTo_message_contains (roles : list string) (role : string) :
  role ∈ roles -> contains (restrictTo_message roles) role.
Proof.
  intros Hin. unfold restrictTo_message.
  by apply contains_append_l, contains_append_r, join_contains.
Qed.

(** ** The role guard *)

Lemma restrictTo_allow roles req user db :
  includes roles (user_role user) = true ->
  run (restrictTo roles req) (fresh user db) = passed user db.
Proof.
  intros H. unfold run, restrictTo, bind, locals_user, fresh; simpl.
  by rewrite H.
Qed.

Lemma restrictTo_deny roles req user db :
  includes roles (user_role user) = false ->
  run (restrictTo roles req) (fresh user db)
  = forwarded user db (mkAppError 403 (restrictTo_message roles)).
Proof.
  intros H. unfold run, restrictTo, bind, locals_user, fresh; simpl.
  by rewrite H.
Qed.

Lemma passed_not_forwarded user db e : passed user db <> forwarded user db e.
Proof. unfold passed, forwarded. congruence. Qed.

(** C3: for a non-empty list of allowed roles and any resolved user, the
    role guard passes the request on exactly when the user's role is one
    of the allowed roles; otherwise it forwards an error with status code
    403 whose message contains every allowed role. *)
Theorem restrictTo_allows_iff_member
    (roles : list string) (req : Request) (user : CurrentUser)
    (db : BookingService) (Hroles : roles <> []) :
  (run (restrictTo roles req) (fresh user db) = passed user db
     <-> user_role user ∈ roles)
  /\ (user_role user ∉ roles ->
      exists e,
        run (restrictTo roles req) (fresh user db) = forwarded user db e
        /\ statusCode e = 403
        /\ forall role, role ∈ roles -> contains (message e) role).
Proof.
  split.
  - rewrite <- includes_spec.
    destruct (includes roles (user_role user)) eqn:E.
    + by rewrite restrictTo_allow.
    + rewrite (restrictTo_deny _ _ _ _ E). split; [|done].
      intros H. symmetry in H. by apply passed_not_forwarded in H.
  - intros Hnot. exists (mkAppError 403 (restrictTo_message roles)).
    split; [|split; [reflexivity|]].
    + apply restrictTo_deny. apply not_true_is_false.
      by rewrite includes_spec.
    + intros role. apply restrictTo_message_contains.
Qed.

(** C8: configured with no allowed role at all, the guard forwards a 403
    error for every user, whatever the role. *)
Theorem restrictTo_empty_denies_all
    (req : Request) (user : CurrentUser) (db : BookingService) :
  run (restrictTo [] req) (fresh user db)
  = forwarded user db
      (mkAppError 403
         "Unauthorized - You don't have permissions. Access restricted to .").
Proof. reflexivity. Qed.

(** ** The ownership check of [getBookingHandler] *)

Section GetBooking.
Variables (req : Request) (user : CurrentUser) (db : BookingService).

Lemma getBookingHandler_not_found :
  svc_getBooking db (req_params req !! "bookingId") = Ok None ->
  run (getBookingHandler req) (fresh user db)
  = forwarded user db booking_not_found.
Proof.
  unfold run, getBookingHandler, try_catch, bind, getBooking, await,
    locals_user, fresh; simpl.
  by intros ->.
Qed.

Lemma getBookingHandler_allow (booking : Booking) :
  svc_getBooking db (req_params req !! "bookingId") = Ok (Some booking) ->
  userIsAdmin (user_role user) || userIsBooker booking (user_id user) = true ->
  run (getBookingHandler req) (fresh user db)
  = responded user db 200 (booking_payload booking).
Proof.
  unfold run, getBookingHandler, try_catch, bind, getBooking, await,
    locals_user, fresh; simpl.
  intros -> H. rewrite <- negb_orb, H. reflexivity.
Qed.

Lemma getBookingHandler_deny (booking : Booking) :
  svc_getBooking db (req_params req !! "bookingId") = Ok (Some booking) ->
  userIsAdmin (user_role user) || userIsBooker booking (user_id user) = false ->
  run (getBookingHandler req) (fresh user db)
  = forwarded user db booking_forbidden.
Proof.
  unfold run, getBookingHandler, try_catch, bind, getBooking, await,
    locals_user, fresh; simpl.
  intros -> H. rewrite <- negb_orb, H. reflexivity.
Qed.

Lemma getBookingHandler_rejected (error : Thrown) :
  svc_getBooking db (req_params req !! "bookingId") = Throw error ->
  run (getBookingHandler req) (fresh user db)
  = mkSt (mkResponse 200 None user) [Some error] [error] db.
Proof.
  unfold run, getBookingHandler, try_catch, bind, getBooking, await,
    locals_user, fresh; simpl.
  by intros ->.
Qed.
End GetBooking.

Lemma userIsAdmin_spec (role : string) :
  userIsAdmin role = true <-> role = "admin".
Proof. apply String.eqb_eq. Qed.

Lemma userIsBooker_spec (booking : Booking) (uid : UserId) :
  userIsBooker booking uid = true
  <-> uid = IdString (toHexString (booking_user_id booking)).
Proof.
  unfold userIsBooker, ObjectId_toString. destruct uid as [s|o]; simpl.
  - rewrite String.eqb_eq. split; [by intros ->|]. by intros [= ->].
  - split; discriminate.
Qed.

Lemma admin_or_booker_spec (booking : Booking) (user : CurrentUser) :
  userIsAdmin (user_role user) || userIsBooker booking (user_id user) = true
  <-> user_role user = "admin"
      \/ user_id user = IdString (toHexString (booking_user_id booking)).
Proof. by rewrite orb_true_iff, userIsAdmin_spec, userIsBooker_spec. Qed.

Lemma responded_not_forwarded user db code body e :
  responded user db code body <> forwarded user db e.
Proof. unfold responded, forwarded. congruence. Qed.

(** C1: for an existing booking and a resolved user, the handler answers
    with the booking exactly when the user's role is admin or the user's
    id is the (string form of the) id of the booking's owner; otherwise it
    forwards the 403 error saying that the caller must have booked the
    booking or be admin. *)
Theorem getBookingHandler_allows_admin_or_owner
    (req : Request) (user : CurrentUser) (db : BookingService)
    (booking : Booking)
    (Hfound : svc_getBooking db (req_params req !! "bookingId")
              = Ok (Some booking)) :
  (run (getBookingHandler req) (fresh user db)
   = responded user db 200 (booking_payload booking)
   <-> user_role user = "admin"
       \/ user_id user = IdString (toHexString (booking_user_id booking)))
  /\ (~ (user_role user = "admin"
         \/ user_id user = IdString (toHexString (booking_user_id booking))) ->
      run (getBookingHandler req) (fresh user db)
      = forwarded user db
          (mkAppError 403
             "You can only check a booking that you booked yourself, or you need to be Admin")).
Proof.
  rewrite <- admin_or_booker_spec.
  destruct (userIsAdmin (user_role user)
            || userIsBooker booking (user_id user)) eqn:E.
  - rewrite (getBookingHandler_allow _ _ _ _ Hfound E). by split.
  - rewrite (getBookingHandler_deny _ _ _ _ Hfound E). split; [|done].
    split; [|done]. intros H. symmetry in H.
    by apply responded_not_forwarded in H.
Qed.

(** C2: when the lookup of the booking id returns nothing, the handler
    forwards the 404 error whoever the current user is (admin, owner of
    anything, or neither): the existence check comes before the role and
    the ownership comparison. *)
Theorem getBookingHandler_missing_booking_404
    (req : Request) (db : BookingService)
    (Hmissing : svc_getBooking db (req_params req !! "bookingId") = Ok None) :
  forall user : CurrentUser,
    run (getBookingHandler req) (fresh user db)
    = forwarded user db (mkAppError 404 "Booking not found").
Proof. intros user. by apply getBookingHandler_not_found. Qed.


(** Outside the declared type: an id that is not a string is equal to no
    string. *)
Lemma userIsBooker_not_a_string (booking : Booking) (o : ObjectId) :
  userIsBooker booking (IdObject o) = false.
Proof. reflexivity. Qed.


(** C7: on a fresh response, when the lookup finds nothing or the caller
    is neither admin nor booker, the handler hands an [AppError] (404,
    respectively 403) to [next] and sends no body; when the caller is
    admin or booker it answers 200 with
    [{status: 'success', data: {booking}}] and does not call [next]; and
    a body is sent in that last case only. *)
Theorem getBookingHandler_denial_forwards_allow_responds
    (req : Request) (user : CurrentUser) (db : BookingService) :
  let lookup := svc_getBooking db (req_params req !! "bookingId") in
  let s' := run (getBookingHandler req) (fresh user db) in
  (lookup = Ok None ->
   st_next s' = [Some (ThrownAppError (mkAppError 404 "Booking not found"))]
   /\ res_body (st_res s') = None)
  /\ (forall booking,
      lookup = Ok (Some booking) ->
      userIsAdmin (user_role user) = false ->
      userIsBooker booking (user_id user) = false ->
      st_next s' = [Some (ThrownAppError booking_forbidden)]
      /\ statusCode booking_forbidden = 403
      /\ res_body (st_res s') = None)
  /\ (forall booking,
      lookup = Ok (Some booking) ->
      userIsAdmin (user_role user) = true
      \/ userIsBooker booking (user_id user) = true ->
      st_next s' = []
      /\ res_statusCode (st_res s') = 200
      /\ res_body (st_res s')
         = Some (PObject [("status", PString "success");
                          ("data", PObject [("booking", PBooking booking)])]))
  /\ (res_body (st_res s') <> None ->
      exists booking,
        lookup = Ok (Some booking)
        /\ (userIsAdmin (user_role user) = true
            \/ userIsBooker booking (user_id user) = true)).
Proof.
  intros lookup s'. subst s'. split; [|split; [|split]].
  - intros Hnone. by rewrite (getBookingHandler_not_found _ _ _ Hnone).
  - intros booking Hsome Hadmin Hbooker.
    rewrite (getBookingHandler_deny _ _ _ _ Hsome); [done|].
    by rewrite Hadmin, Hbooker.
  - intros booking Hsome Hallow%orb_true_iff.
    by rewrite (getBookingHandler_allow _ _ _ _ Hsome Hallow).
  - destruct lookup as [[booking|]|error] eqn:E; subst lookup.
    + destruct (userIsAdmin (user_role user)
                || userIsBooker booking (user_id user)) eqn:Eb.
      * intros _. exists booking. split; [done|]. by apply orb_true_iff.
      * by rewrite (getBookingHandler_deny _ _ _ _ E Eb).
    + by rewrite (getBookingHandler_not_found _ _ _ E).
    + by rewrite (getBookingHandler_rejected _ _ _ _ E).
Qed.

(** ** Statelessness *)

(** From any state, the guard leaves the whole response (so also
    [res.locals.user]), the log and the database as they were, and only
    appends the call of [next] that it makes on a fresh response. *)
Lemma restrictTo_frame (roles : list string) (req : Request) (s : St) :
  st_res (run (restrictTo roles req) s) = st_res s
  /\ st_db (run (restrictTo roles req) s) = st_db s
  /\ st_log (run (restrictTo roles req) s) = st_log s
  /\ st_next (run (restrictTo roles req) s)
     = (st_next s
        ++ st_next (run (restrictTo roles req)
                        (fresh (res_locals_user (st_res s)) (st_db s))))%list.
Proof.
  unfold run, restrictTo, bind, locals_user, fresh; simpl.
  by destruct (includes roles _).
Qed.

(** From any state, the handler leaves [res.locals.user] and the database
    as they were; what it adds to the calls of [next] and to the log, and
    the body it sends, are those of a run on a fresh response. *)
Lemma getBookingHandler_frame (req : Request) (s : St) :
  let s0 := fresh (res_locals_user (st_res s)) (st_db s) in
  res_locals_user (st_res (run (getBookingHandler req) s))
  = res_locals_user (st_res s)
  /\ st_db (run (getBookingHandler req) s) = st_db s
  /\ st_next (run (getBookingHandler req) s)
     = (st_next s ++ st_next (run (getBookingHandler req) s0))%list
  /\ st_log (run (getBookingHandler req) s)
     = (st_log s ++ st_log (run (getBookingHandler req) s0))%list
  /\ res_body (st_res (run (getBookingHandler req) s))
     = match res_body (st_res (run (getBookingHandler req) s0)) with
       | Some body => Some body
       | None => res_body (st_res s)
       end.
Proof.
  unfold run, getBookingHandler, try_catch, bind, getBooking, await,
    locals_user, fresh; simpl.
  destruct (svc_getBooking _ _) as [[booking|]|error]; simpl.
  - destruct (negb _ && negb _); simpl; by rewrite ?app_nil_r.
  - by rewrite ?app_nil_r.
  - done.
Qed.

(** C6: the role guard and the ownership check are deterministic and
    stateless: a run changes neither the current user nor the database
    (the resource); run again on the user and the database that the first
    run left, each gives the same outcome; and the outcome does not
    depend on what was logged or passed to [next] before. *)
Theorem guards_deterministic_and_stateless
    (roles : list string) (req : Request) (user : CurrentUser)
    (db : BookingService) :
  let g := run (restrictTo roles req) (fresh user db) in
  let h := run (getBookingHandler req) (fresh user db) in
  (res_locals_user (st_res g) = user /\ st_db g = db
   /\ run (restrictTo roles req) (fresh (res_locals_user (st_res g)) (st_db g))
      = g)
  /\ (res_locals_user (st_res h) = user /\ st_db h = db
      /\ run (getBookingHandler req)
             (fresh (res_locals_user (st_res h)) (st_db h))
         = h)
  /\ (forall s : St,
        res_locals_user (st_res s) = user -> st_db s = db ->
        res_locals_user (st_res (run (restrictTo roles req) s)) = user
        /\ st_db (run (restrictTo roles req) s) = db
        /\ st_next (run (restrictTo roles req) s) = (st_next s ++ st_next g)%list)
  /\ (forall s : St,
        res_locals_user (st_res s) = user -> st_db s = db ->
        res_locals_user (st_res (run (getBookingHandler req) s)) = user
        /\ st_db (run (getBookingHandler req) s) = db
        /\ st_next (run (getBookingHandler req) s) = (st_next s ++ st_next h)%list
        /\ res_body (st_res (run (getBookingHandler req) s))
           = match res_body (st_res h) with
             | Some body => Some body
             | None => res_body (st_res s)
             end).
Proof.
  intros g h.
  assert (Hg : res_locals_user (st_res g) = user /\ st_db g = db).
  { destruct (restrictTo_frame roles req (fresh user db)) as (Hres & Hdb & _).
    subst g. by rewrite Hres, Hdb. }
  assert (Hh : res_locals_user (st_res h) = user /\ st_db h = db).
  { destruct (getBookingHandler_frame req (fresh user db)) as (Hu & Hdb & _).
    subst h. by rewrite Hu, Hdb. }
  split; [|split; [|split]].
  - destruct Hg as [-> ->]. done.
  - destruct Hh as [-> ->]. done.
  - intros s Hu Hdb.
    destruct (restrictTo_frame roles req s) as (Hres & Hdb' & _ & Hnext).
    rewrite Hres, Hdb', Hnext, Hu, Hdb. done.
  - intros s Hu Hdb.
    destruct (getBookingHandler_frame req s) as (Hu' & Hdb' & Hnext & _ & Hbody).
    rewrite Hu', Hdb', Hnext, Hbody, Hu, Hdb. done.
Qed.

(** ** The self-scoped listing *)

Lemma map_PBooking_inj (l l' : list Booking) :
  map PBooking l = map PBooking l' -> l = l'.
Proof.
  revert l'. induction l as [|b l IH]; intros [|b' l'] H; simplify_eq/=;
    [done|]. f_equal. by apply IH.
Qed.

Lemma bookings_payload_inj (l l' : list Booking) :
  bookings_payload l = bookings_payload l' -> l = l'.
Proof. intros [= _ H]. by apply map_PBooking_inj. Qed.

Lemma getMyBookingsHandler_found req user db bookings :
  svc_getMyBookings db (user_id user) = Ok bookings ->
  run (getMyBookingsHandler req) (fresh user db)
  = responded user db 200 (bookings_payload bookings).
Proof.
  unfold run, getMyBookingsHandler, try_catch, bind, getMyBookings, await,
    locals_user, fresh; simpl.
  by intros ->.
Qed.

Lemma getMyBookingsHandler_rejected req user db error :
  svc_getMyBookings db (user_id user) = Throw error ->
  run (getMyBookingsHandler req) (fresh user db)
  = mkSt (mkResponse 200 None user) [Some error] [error] db.
Proof.
  unfold run, getMyBookingsHandler, try_catch, bind, getMyBookings, await,
    locals_user, fresh; simpl.
  by intros ->.
Qed.

(** C4: the listing of my bookings takes the identity it scopes by from
    [res.locals.user._id] alone: two requests that differ in any way in
    their parameters, query or body lead, from the same state, to the
    same state; the service is asked for the current user's id; and, the
    service being scoped, every booking in the answer is owned by the
    current user. *)
Theorem getMyBookingsHandler_scoped_to_current_user
    (req req' : Request) (user : CurrentUser) (db : BookingService)
    (Hscoped : getMyBookings_scoped db) :
  (forall s : St,
      run (getMyBookingsHandler req) s = run (getMyBookingsHandler req') s)
  /\ (forall bookings,
      svc_getMyBookings db (user_id user) = Ok bookings ->
      run (getMyBookingsHandler req) (fresh user db)
      = responded user db 200 (bookings_payload bookings))
  /\ (forall bookings,
      res_body (st_res (run (getMyBookingsHandler req) (fresh user db)))
      = Some (bookings_payload bookings) ->
      forall b, b ∈ bookings -> denotes (user_id user) (booking_user_id b)).
Proof.
  split; [reflexivity|]. split.
  - apply getMyBookingsHandler_found.
  - intros bookings Hbody b Hb.
    destruct (svc_getMyBookings db (user_id user)) as [found|error] eqn:E.
    + rewrite (getMyBookingsHandler_found _ _ _ _ E) in Hbody.
      assert (found = bookings) as ->
        by (apply bookings_payload_inj; simpl in Hbody; congruence).
      by apply (Hscoped _ _ E).
    + by rewrite (getMyBookingsHandler_rejected _ _ _ _ E) in Hbody.
Qed.

(** ** The user service *)

(** C9: when creating the user raises an [Error], [createUser] throws an
    [AppError] with status code 409 and the message of that error; when
    it raises a value that is not an [Error], [createUser] throws that
    same value. *)
Theorem createUser_wraps_errors_as_409
    (User_create : JsObject -> Result UserDocument)
    (inputData : JsObject) (err : Thrown)
    (Hraised : User_create inputData = Throw err) :
  (instanceofError err = true ->
   createUser User_create inputData
   = Throw (ThrownAppError (mkAppError 409 (err_message err))))
  /\ (instanceofError err = false ->
      createUser User_create inputData = Throw err).
Proof.
  unfold createUser, catch, mbind, Result_bind. rewrite Hraised.
  split; by intros ->.
Qed.

Lemma checkPassword_success User_findOne email password user :
  User_findOne email = Ok (Some user) ->
  doc_comparePassword user password = Ok true ->
  checkPassword User_findOne email password
  = Ok (Some (delete "comparePassword" (delete "password" (doc_fields user)))).
Proof.
  unfold checkPassword, mbind, Result_bind. by intros -> ->.
Qed.

(** C10: [checkPassword] returns [null] when no user has the email and
    when the password does not match, so the caller gets the same value
    in both cases; an object it returns on success has neither a
    [password] nor a [comparePassword] property. *)
Theorem checkPassword_null_on_failure_no_secrets
    (User_findOne : string -> Result (option UserDocument))
    (email password : string) :
  (User_findOne email = Ok None ->
   checkPassword User_findOne email password = Ok None)
  /\ (forall user,
      User_findOne email = Ok (Some user) ->
      doc_comparePassword user password = Ok false ->
      checkPassword User_findOne email password = Ok None)
  /\ (forall object,
      checkPassword User_findOne email password = Ok (Some object) ->
      object !! "password" = None /\ object !! "comparePassword" = None).
Proof.
  unfold checkPassword, mbind, Result_bind. split; [|split].
  - by intros ->.
  - by intros user -> ->.
  - intros object.
    destruct (User_findOne email) as [[user|]|error]; [|done..].
    destruct (doc_comparePassword user password) as [[|]|error]; [|done..].
    unfold toObject. intros [= <-]. split.
    + by rewrite lookup_delete_ne, lookup_delete_eq.
    + by rewrite lookup_delete_eq.
Qed.

(** * The properties on the sample documents *)

Lemma owned_by_denotes (uid : UserId) (b : Booking) :
  owned_by uid b = true -> denotes uid (booking_user_id b).
Proof.
  destruct uid as [s|[hex]]; simpl; intros H%String.eqb_eq; [done|].
  destruct (booking_user_id b); simpl in *. by subst.
Qed.

Lemma filter_owned_by_scoped (uid : UserId) (stored bookings : list Booking) :
  Ok (List.filter (owned_by uid) stored) = Ok bookings ->
  forall b, b ∈ bookings -> denotes uid (booking_user_id b).
Proof.
  intros [= <-] b Hb. apply list_elem_of_In, filter_In in Hb as [_ Hb].
  by apply owned_by_denotes.
Qed.

Lemma sample_db_scoped : getMyBookings_scoped sample_db.
Proof.
  intros uid bookings H. exact (filter_owned_by_scoped uid sample_bookings _ H).
Qed.

(** C3 on the roles of [DELETE /tours/:id]: the admin passes, Bob is
    refused with a message that names both roles. *)
Lemma restrictTo_allows_iff_member_witness :
  ["admin"; "lead-guide"] <> []
  /\ run (restrictTo ["admin"; "lead-guide"] empty_request)
         (fresh admin sample_db)
     = passed admin sample_db
  /\ exists e,
      run (restrictTo ["admin"; "lead-guide"] empty_request)
          (fresh bob sample_db)
      = forwarded bob sample_db e
      /\ statusCode e = 403
      /\ forall role,
          role ∈ ["admin"; "lead-guide"] -> contains (message e) role.
Proof.
  assert (Hroles : ["admin"; "lead-guide"] <> []) by discriminate.
  split; [exact Hroles|]. split.
  - apply (restrictTo_allows_iff_member
             ["admin"; "lead-guide"] empty_request admin sample_db Hroles).
    apply elem_of_cons. by left.
  - apply (restrictTo_allows_iff_member
             ["admin"; "lead-guide"] empty_request bob sample_db Hroles).
    intros [H|[H|H%elem_of_nil]%elem_of_cons]%elem_of_cons;
      [discriminate H|discriminate H|exact H].
Defined.

(** C1 on Alice's booking: Alice gets it, and so does the admin. *)
Lemma getBookingHandler_allows_admin_or_owner_witness :
  svc_getBooking sample_db (req_params alice_booking_request !! "bookingId")
  = Ok (Some alice_booking)
  /\ run (getBookingHandler alice_booking_request) (fresh alice sample_db)
     = responded alice sample_db 200 (booking_payload alice_booking)
  /\ run (getBookingHandler alice_booking_request) (fresh admin sample_db)
     = responded admin sample_db 200 (booking_payload alice_booking)
  /\ run (getBookingHandler alice_booking_request) (fresh bob sample_db)
     = forwarded bob sample_db booking_forbidden.
Proof.
  assert (Hfound : svc_getBooking sample_db
                     (req_params alice_booking_request !! "bookingId")
                   = Ok (Some alice_booking)) by reflexivity.
  split; [exact Hfound|]. split; [|split].
  - apply (getBookingHandler_allows_admin_or_owner
             alice_booking_request alice sample_db alice_booking Hfound).
    right. reflexivity.
  - apply (getBookingHandler_allows_admin_or_owner
             alice_booking_request admin sample_db alice_booking Hfound).
    left. reflexivity.
  - apply (getBookingHandler_allows_admin_or_owner
             alice_booking_request bob sample_db alice_booking Hfound).
    intros [H|H]; discriminate H.
Defined.

(** C2 on an id that no booking has: 404 for the admin too. *)
Lemma getBookingHandler_missing_booking_404_witness :
  svc_getBooking sample_db (req_params missing_booking_request !! "bookingId")
  = Ok None
  /\ run (getBookingHandler missing_booking_request) (fresh admin sample_db)
     = forwarded admin sample_db (mkAppError 404 "Booking not found").
Proof.
  assert (Hmissing : svc_getBooking sample_db
                       (req_params missing_booking_request !! "bookingId")
                     = Ok None) by reflexivity.
  split; [exact Hmissing|].
  apply (getBookingHandler_missing_booking_404
           missing_booking_request sample_db Hmissing admin).
Defined.


(** C7 on the sample database: the missing booking and Bob's attempt at
    Alice's booking reach [next] with a typed error and send nothing;
    Alice's own request is answered 200 with the booking. *)
Lemma getBookingHandler_denial_forwards_allow_responds_witness :
  (st_next (run (getBookingHandler missing_booking_request)
                (fresh admin sample_db))
   = [Some (ThrownAppError (mkAppError 404 "Booking not found"))]
   /\ res_body (st_res (run (getBookingHandler missing_booking_request)
                            (fresh admin sample_db))) = None)
  /\ (st_next (run (getBookingHandler alice_booking_request)
                   (fresh bob sample_db))
      = [Some (ThrownAppError booking_forbidden)]
      /\ statusCode booking_forbidden = 403
      /\ res_body (st_res (run (getBookingHandler alice_booking_request)
                               (fresh bob sample_db))) = None)
  /\ (st_next (run (getBookingHandler alice_booking_request)
                   (fresh alice sample_db)) = []
      /\ res_statusCode (st_res (run (getBookingHandler alice_booking_request)
                                     (fresh alice sample_db))) = 200
      /\ res_body (st_res (run (getBookingHandler alice_booking_request)
                               (fresh alice sample_db)))
         = Some (PObject [("status", PString "success");
                          ("data",
                           PObject [("booking", PBooking alice_booking)])])).
Proof.
  split; [|split].
  - pose proof (getBookingHandler_denial_forwards_allow_responds
                  missing_booking_request admin sample_db) as H.
    cbv zeta in H. destruct H as (Hmissing & _).
    apply Hmissing. reflexivity.
  - pose proof (getBookingHandler_denial_forwards_allow_responds
                  alice_booking_request bob sample_db) as H.
    cbv zeta in H. destruct H as (_ & Hdenied & _).
    apply (Hdenied alice_booking); reflexivity.
  - pose proof (getBookingHandler_denial_forwards_allow_responds
                  alice_booking_request alice sample_db) as H.
    cbv zeta in H. destruct H as (_ & _ & Hallowed & _).
    apply (Hallowed alice_booking); [reflexivity|]. right. reflexivity.
Defined.

(** C6 on Bob asking for Alice's booking after the guard ran: the user
    and the database stay, and the refusal is the one of a fresh run. *)
Lemma guards_deterministic_and_stateless_witness :
  res_locals_user (st_res after_guard) = bob
  /\ st_db after_guard = sample_db
  /\ res_locals_user
       (st_res (run (getBookingHandler alice_booking_request) after_guard))
     = bob
  /\ st_db (run (getBookingHandler alice_booking_request) after_guard)
     = sample_db
  /\ st_next (run (getBookingHandler alice_booking_request) after_guard)
     = [None; Some (ThrownAppError booking_forbidden)].
Proof.
  assert (Huser : res_locals_user (st_res after_guard) = bob) by reflexivity.
  assert (Hdb : st_db after_guard = sample_db) by reflexivity.
  split; [exact Huser|]. split; [exact Hdb|].
  pose proof (guards_deterministic_and_stateless
                ["user"] alice_booking_request bob sample_db) as H.
  cbv zeta in H. destruct H as (_ & _ & _ & Hframe).
  destruct (Hframe after_guard Huser Hdb) as (Hu & Hd & Hn & _).
  split; [exact Hu|]. split; [exact Hd|]. exact Hn.
Defined.

(** C4 on Alice asking for her bookings with Bob's id in the parameters,
    the query and the body: the answer is that of the plain request, and
    holds her booking only. *)
Lemma getMyBookingsHandler_scoped_to_current_user_witness :
  getMyBookings_scoped sample_db
  /\ run (getMyBookingsHandler injected_request) (fresh alice sample_db)
     = run (getMyBookingsHandler empty_request) (fresh alice sample_db)
  /\ run (getMyBookingsHandler injected_request) (fresh alice sample_db)
     = responded alice sample_db 200 (bookings_payload [alice_booking])
  /\ forall b, b ∈ [alice_booking] ->
               denotes (user_id alice) (booking_user_id b).
Proof.
  split; [exact sample_db_scoped|].
  destruct (getMyBookingsHandler_scoped_to_current_user
              injected_request empty_request alice sample_db sample_db_scoped)
    as (Hsame & Hfound & Howned).
  split; [apply Hsame|]. split.
  - apply Hfound. reflexivity.
  - apply Howned. reflexivity.
Defined.

(** C9 on a duplicate email and on a thrown string. *)
Lemma createUser_wraps_errors_as_409_witness :
  duplicate_create ∅
  = Throw (ThrownError "MongoServerError" "E11000 duplicate key error")
  /\ createUser duplicate_create ∅
     = Throw (ThrownAppError (mkAppError 409 "E11000 duplicate key error"))
  /\ createUser string_throwing_create ∅
     = Throw (ThrownValue (JsString "boom")).
Proof.
  assert (Hdup : duplicate_create ∅
                 = Throw (ThrownError "MongoServerError"
                                      "E11000 duplicate key error"))
    by reflexivity.
  assert (Hstr : string_throwing_create ∅
                 = Throw (ThrownValue (JsString "boom"))) by reflexivity.
  split; [exact Hdup|]. split.
  - apply (createUser_wraps_errors_as_409 duplicate_create ∅ _ Hdup).
    reflexivity.
  - apply (createUser_wraps_errors_as_409 string_throwing_create ∅ _ Hstr).
    reflexivity.
Defined.

(** C10 on the sample [User] model: an unknown email and a wrong
    password both give [null]; the right password gives Jonas without
    [password] and [comparePassword]. *)
Lemma checkPassword_null_on_failure_no_secrets_witness :
  checkPassword sample_findOne "nobody@example.com" "test1234" = Ok None
  /\ checkPassword sample_findOne "jonas@example.com" "pass1234" = Ok None
  /\ exists object,
      checkPassword sample_findOne "jonas@example.com" "test1234"
      = Ok (Some object)
      /\ object !! "password" = None
      /\ object !! "comparePassword" = None.
Proof.
  split; [|split].
  - apply (checkPassword_null_on_failure_no_secrets
             sample_findOne "nobody@example.com" "test1234").
    reflexivity.
  - apply (proj1 (proj2 (checkPassword_null_on_failure_no_secrets
                           sample_findOne "jonas@example.com" "pass1234"))
             jonas_document); reflexivity.
  - eexists. split.
    + apply (checkPassword_success sample_findOne _ _ jonas_document);
        reflexivity.
    + apply (proj2 (proj2 (checkPassword_null_on_failure_no_secrets
                             sample_findOne "jonas@example.com" "test1234"))).
      apply (checkPassword_success sample_findOne _ _ jonas_document);
        reflexivity.
Defined.

(** * Further properties of the guard, the handlers and the services *)

(** ** The role guard *)

Lemma restrictTo_passed_includes roles req user db :
  run (restrictTo roles req) (fresh user db) = passed user db
  <-> includes roles (user_role user) = true.
Proof.
  destruct (includes roles (user_role user)) eqn:E.
  - by rewrite restrictTo_allow.
  - rewrite (restrictTo_deny _ _ _ _ E). split; [|done].
    intros H. symmetry in H. by apply passed_not_forwarded in H.
Qed.

(** X1: whatever the roles, the request and the state, the guard
    returns normally, leaves the response and the log alone, and calls
    [next] exactly once: without argument, or with a 403 [AppError]. *)
Theorem restrictTo_calls_next_exactly_once
    (roles : list string) (req : Request) (s : St) :
  snd (restrictTo roles req s) = Ok tt
  /\ st_res (run (restrictTo roles req) s) = st_res s
  /\ st_log (run (restrictTo roles req) s) = st_log s
  /\ exists arg,
      st_next (run (restrictTo roles req) s) = (st_next s ++ [arg])%list
      /\ (arg = None
          \/ exists e, arg = Some (ThrownAppError e) /\ statusCode e = 403).
Proof.
  unfold run, restrictTo, bind, locals_user; simpl.
  destruct (includes roles _); simpl; (split; [done|]);
    (split; [done|]); (split; [done|]).
  - exists None. by split; [|left].
  - eexists. split; [done|]. right. by eexists.
Qed.

(** X2: allowing more roles never shuts out a user: when every role of
    [roles] is also in [roles'], whoever passes the guard for [roles]
    passes the guard for [roles'].  So the order of the roles and
    repetitions among them do not matter either. *)
Theorem restrictTo_more_roles_pass_more
    (roles roles' : list string) (req : Request) (user : CurrentUser)
    (db : BookingService)
    (Hsub : forall role, role ∈ roles -> role ∈ roles')
    (Hpass : run (restrictTo roles req) (fresh user db) = passed user db) :
  run (restrictTo roles' req) (fresh user db) = passed user db.
Proof.
  apply restrictTo_passed_includes, includes_spec, Hsub, includes_spec.
  by apply (restrictTo_passed_includes roles req user db).
Qed.

Lemma restrictTo_more_roles_pass_more_witness :
  run (restrictTo ["admin"] empty_request) (fresh admin sample_db)
  = passed admin sample_db
  /\ run (restrictTo ["lead-guide"; "admin"; "admin"] empty_request)
         (fresh admin sample_db)
     = passed admin sample_db.
Proof.
  assert (Hpass : run (restrictTo ["admin"] empty_request)
                      (fresh admin sample_db)
                  = passed admin sample_db) by reflexivity.
  split; [exact Hpass|].
  apply (restrictTo_more_roles_pass_more
           ["admin"] ["lead-guide"; "admin"; "admin"]
           empty_request admin sample_db); [|exact Hpass].
  intros role ->%list_elem_of_singleton.
  apply elem_of_cons. right. apply elem_of_cons. by left.
Defined.

(** X3: a user whom [restrictTo('admin')] lets pass is never refused by
    the ownership check: for a booking that exists, [getBookingHandler]
    answers with it. *)
Theorem admin_guard_then_getBookingHandler_allows
    (req req' : Request) (user : CurrentUser) (db : BookingService)
    (booking : Booking)
    (Hpass : run (restrictTo ["admin"] req) (fresh user db) = passed user db)
    (Hfound : svc_getBooking db (req_params req' !! "bookingId")
              = Ok (Some booking)) :
  run (getBookingHandler req') (fresh user db)
  = responded user db 200 (booking_payload booking).
Proof.
  apply (getBookingHandler_allow _ _ _ _ Hfound).
  apply restrictTo_passed_includes, includes_spec in Hpass.
  apply list_elem_of_singleton, userIsAdmin_spec in Hpass.
  by rewrite Hpass.
Qed.

Lemma admin_guard_then_getBookingHandler_allows_witness :
  run (restrictTo ["admin"] alice_booking_request) (fresh admin sample_db)
  = passed admin sample_db
  /\ svc_getBooking sample_db
       (req_params alice_booking_request !! "bookingId")
     = Ok (Some alice_booking)
  /\ run (getBookingHandler alice_booking_request) (fresh admin sample_db)
     = responded admin sample_db 200 (booking_payload alice_booking).
Proof.
  assert (Hpass : run (restrictTo ["admin"] alice_booking_request)
                      (fresh admin sample_db)
                  = passed admin sample_db) by reflexivity.
  assert (Hfound : svc_getBooking sample_db
                     (req_params alice_booking_request !! "bookingId")
                   = Ok (Some alice_booking)) by reflexivity.
  split; [exact Hpass|]. split; [exact Hfound|].
  exact (admin_guard_then_getBookingHandler_allows
           alice_booking_request alice_booking_request admin sample_db
           alice_booking Hpass Hfound).
Defined.

(** ** [getBookingHandler] *)

Lemma getBookingHandler_returns (req : Request) (s : St) :
  snd (getBookingHandler req s) = Ok tt.
Proof.
  unfold getBookingHandler, try_catch, bind, getBooking, await, locals_user;
    simpl.
  destruct (svc_getBooking _ _) as [[booking|]|error]; simpl; [|done..].
  by destruct (negb _ && negb _).
Qed.

(** X4: on a fresh response [getBookingHandler] never throws and does
    exactly one of two things: it sends no body and calls [next] exactly
    once, with the 404 [AppError], the 403 [AppError] or the very value
    that the lookup rejected with; or it does not call [next] and answers
    200 with the payload of one booking. *)
Theorem getBookingHandler_sends_or_calls_next_once
    (req : Request) (user : CurrentUser) (db : BookingService) :
  snd (getBookingHandler req (fresh user db)) = Ok tt
  /\ ((res_body (st_res (run (getBookingHandler req) (fresh user db))) = None
       /\ exists arg,
           st_next (run (getBookingHandler req) (fresh user db)) = [Some arg]
           /\ (arg = ThrownAppError booking_not_found
               \/ arg = ThrownAppError booking_forbidden
               \/ svc_getBooking db (req_params req !! "bookingId")
                  = Throw arg))
      \/ (st_next (run (getBookingHandler req) (fresh user db)) = []
          /\ res_statusCode
               (st_res (run (getBookingHandler req) (fresh user db))) = 200
          /\ exists booking,
              res_body (st_res (run (getBookingHandler req) (fresh user db)))
              = Some (booking_payload booking))).
Proof.
  split; [apply getBookingHandler_returns|].
  destruct (svc_getBooking db (req_params req !! "bookingId"))
    as [[booking|]|error] eqn:E.
  - destruct (userIsAdmin (user_role user)
              || userIsBooker booking (user_id user)) eqn:Eb.
    + right. rewrite (getBookingHandler_allow _ _ _ _ E Eb). eauto.
    + left. rewrite (getBookingHandler_deny _ _ _ _ E Eb).
      split; [done|]. eexists. split; [done|]. right. by left.
  - left. rewrite (getBookingHandler_not_found _ _ _ E).
    split; [done|]. eexists. split; [done|]. by left.
  - left. rewrite (getBookingHandler_rejected _ _ _ _ E).
    split; [done|]. exists error. split; [done|]. right. by right.
Qed.

(** X5: when the lookup of the booking rejects, the handler logs the
    error, hands the same error to [next] and sends nothing; and this is
    the only case in which it logs: the 404 and the 403 are not logged. *)
Theorem getBookingHandler_logs_and_forwards_lookup_failure
    (req : Request) (user : CurrentUser) (db : BookingService) :
  (forall error,
      svc_getBooking db (req_params req !! "bookingId") = Throw error ->
      run (getBookingHandler req) (fresh user db)
      = mkSt (mkResponse 200 None user) [Some error] [error] db)
  /\ (st_log (run (getBookingHandler req) (fresh user db)) <> [] ->
      exists error,
        svc_getBooking db (req_params req !! "bookingId") = Throw error).
Proof.
  split; [apply getBookingHandler_rejected|].
  destruct (svc_getBooking db (req_params req !! "bookingId"))
    as [[booking|]|error] eqn:E.
  - destruct (userIsAdmin (user_role user)
              || userIsBooker booking (user_id user)) eqn:Eb.
    + by rewrite (getBookingHandler_allow _ _ _ _ E Eb).
    + by rewrite (getBookingHandler_deny _ _ _ _ E Eb).
  - by rewrite (getBookingHandler_not_found _ _ _ E).
  - eauto.
Qed.

Lemma getBookingHandler_logs_and_forwards_lookup_failure_witness :
  svc_getBooking failing_db (req_params alice_booking_request !! "bookingId")
  = Throw (ThrownError "MongoNetworkError" "connection closed")
  /\ run (getBookingHandler alice_booking_request) (fresh admin failing_db)
     = mkSt (mkResponse 200 None admin)
            [Some (ThrownError "MongoNetworkError" "connection closed")]
            [ThrownError "MongoNetworkError" "connection closed"]
            failing_db.
Proof.
  assert (Hfail : svc_getBooking failing_db
                    (req_params alice_booking_request !! "bookingId")
                  = Throw (ThrownError "MongoNetworkError"
                                       "connection closed")) by reflexivity.
  split; [exact Hfail|].
  exact (proj1 (getBookingHandler_logs_and_forwards_lookup_failure
                  alice_booking_request admin failing_db) _ Hfail).
Defined.

Lemma booking_payload_inj (b b' : Booking) :
  booking_payload b = booking_payload b' -> b = b'.
Proof. by intros [= ->]. Qed.

(** X6: [getBookingHandler] discloses a booking to its owner and to
    admins only: whatever body it sends is the payload of the booking the
    lookup found, and the caller's role is admin or the caller's id
    denotes the owner of that booking. *)
Theorem getBookingHandler_discloses_to_admin_or_owner_only
    (req : Request) (user : CurrentUser) (db : BookingService)
    (body : Payload)
    (Hsent : res_body (st_res (run (getBookingHandler req) (fresh user db)))
             = Some body) :
  exists booking,
    svc_getBooking db (req_params req !! "bookingId") = Ok (Some booking)
    /\ body = booking_payload booking
    /\ (user_role user = "admin"
        \/ denotes (user_id user) (booking_user_id booking)).
Proof.
  destruct (svc_getBooking db (req_params req !! "bookingId"))
    as [[booking|]|error] eqn:E.
  - destruct (userIsAdmin (user_role user)
              || userIsBooker booking (user_id user)) eqn:Eb.
    + rewrite (getBookingHandler_allow _ _ _ _ E Eb) in Hsent.
      exists booking. split; [done|]. split; [by simplify_eq/=|].
      apply admin_or_booker_spec in Eb as [Hadmin|Hbooker]; [by left|].
      right. by rewrite Hbooker.
    + by rewrite (getBookingHandler_deny _ _ _ _ E Eb) in Hsent.
  - by rewrite (getBookingHandler_not_found _ _ _ E) in Hsent.
  - by rewrite (getBookingHandler_rejected _ _ _ _ E) in Hsent.
Qed.

Lemma getBookingHandler_discloses_to_admin_or_owner_only_witness :
  res_body (st_res (run (getBookingHandler alice_booking_request)
                        (fresh alice sample_db)))
  = Some (booking_payload alice_booking)
  /\ exists booking,
      svc_getBooking sample_db
        (req_params alice_booking_request !! "bookingId")
      = Ok (Some booking)
      /\ booking_payload alice_booking = booking_payload booking
      /\ (user_role alice = "admin"
          \/ denotes (user_id alice) (booking_user_id booking)).
Proof.
  assert (Hsent : res_body (st_res (run (getBookingHandler
                                           alice_booking_request)
                                        (fresh alice sample_db)))
                  = Some (booking_payload alice_booking)) by reflexivity.
  split; [exact Hsent|].
  exact (getBookingHandler_discloses_to_admin_or_owner_only
           alice_booking_request alice sample_db _ Hsent).
Defined.

(** X7: of the request, [getBookingHandler] reads [params.bookingId]
    only: two requests with the same booking id, however their other
    parameters, their query and their body differ, have the same effect
    and the same result from any state. *)
Theorem getBookingHandler_reads_bookingId_only
    (req req' : Request) (s : St)
    (Hid : req_params req !! "bookingId" = req_params req' !! "bookingId") :
  getBookingHandler req s = getBookingHandler req' s.
Proof. unfold getBookingHandler. by rewrite Hid. Qed.

Lemma getBookingHandler_reads_bookingId_only_witness :
  req_params noisy_booking_request !! "bookingId"
  = req_params alice_booking_request !! "bookingId"
  /\ getBookingHandler noisy_booking_request (fresh bob sample_db)
     = getBookingHandler alice_booking_request (fresh bob sample_db).
Proof.
  assert (Hid : req_params noisy_booking_request !! "bookingId"
                = req_params alice_booking_request !! "bookingId")
    by reflexivity.
  split; [exact Hid|].
  exact (getBookingHandler_reads_bookingId_only
           noisy_booking_request alice_booking_request _ Hid).
Defined.

(** ** The listings *)

Lemma getAllBookingsHandler_found ctx req user db bookings :
  svc_getAllBookings ctx (locals_queryFilterByTourId ctx) (req_query req)
  = Ok bookings ->
  getAllBookingsHandler ctx req (fresh user db)
  = (responded user db 200 (bookings_payload bookings), Ok tt).
Proof.
  unfold getAllBookingsHandler, try_catch, bind, await, fresh; simpl.
  by intros ->.
Qed.

Lemma getAllBookingsHandler_rejected ctx req user db error :
  svc_getAllBookings ctx (locals_queryFilterByTourId ctx) (req_query req)
  = Throw error ->
  getAllBookingsHandler ctx req (fresh user db)
  = (mkSt (mkResponse 200 None user) [Some error] [error] db, Ok tt).
Proof.
  unfold getAllBookingsHandler, try_catch, bind, await, fresh; simpl.
  by intros ->.
Qed.

Lemma getMyBookingsHandler_returns (req : Request) (s : St) :
  snd (getMyBookingsHandler req s) = Ok tt.
Proof.
  unfold getMyBookingsHandler, try_catch, bind, getMyBookings, await,
    locals_user; simpl.
  by destruct (svc_getMyBookings _ _).
Qed.

(** X8: [getMyBookingsHandler] never throws and has two outcomes only:
    the service resolved and the handler answers 200 with its bookings
    without calling [next]; or the service rejected and the handler logs
    the error, hands the same error to [next] and sends nothing. *)
Theorem getMyBookingsHandler_answers_or_forwards
    (req : Request) (user : CurrentUser) (db : BookingService) :
  snd (getMyBookingsHandler req (fresh user db)) = Ok tt
  /\ ((exists bookings,
          svc_getMyBookings db (user_id user) = Ok bookings
          /\ run (getMyBookingsHandler req) (fresh user db)
             = responded user db 200 (bookings_payload bookings))
      \/ (exists error,
             svc_getMyBookings db (user_id user) = Throw error
             /\ run (getMyBookingsHandler req) (fresh user db)
                = mkSt (mkResponse 200 None user) [Some error] [error] db)).
Proof.
  split; [apply getMyBookingsHandler_returns|].
  destruct (svc_getMyBookings db (user_id user)) as [bookings|error] eqn:E.
  - left. exists bookings. split; [done|].
    by apply getMyBookingsHandler_found.
  - right. exists error. split; [done|].
    by apply getMyBookingsHandler_rejected.
Qed.

(** X9: the listing of my bookings gives an admin nothing more: two
    current users with the same id and different roles get the same body,
    the same call of [next] and the same log line. *)
Theorem getMyBookingsHandler_ignores_role
    (req : Request) (uid : UserId) (role role' : string)
    (db : BookingService) :
  let s := run (getMyBookingsHandler req) (fresh (mkCurrentUser uid role) db) in
  let s' := run (getMyBookingsHandler req) (fresh (mkCurrentUser uid role') db) in
  res_statusCode (st_res s) = res_statusCode (st_res s')
  /\ res_body (st_res s) = res_body (st_res s')
  /\ st_next s = st_next s'
  /\ st_log s = st_log s'.
Proof.
  intros s s'. subst s s'.
  destruct (svc_getMyBookings db uid) as [bookings|error] eqn:E.
  - by rewrite !(getMyBookingsHandler_found req _ db bookings).
  - by rewrite !(getMyBookingsHandler_rejected req _ db error).
Qed.

(** X10: [getAllBookingsHandler] filters by no owner: it answers 200
    with every booking that the service returned for the query and the
    tour filter, in the same way for every current user, and it reads
    nothing of the request but the query. *)
Theorem getAllBookingsHandler_same_for_every_caller
    (ctx : ListingContext) (req req' : Request) (db : BookingService)
    (bookings : list Booking)
    (Hquery : req_query req = req_query req')
    (Hfound : svc_getAllBookings ctx (locals_queryFilterByTourId ctx)
                                 (req_query req)
              = Ok bookings) :
  forall user : CurrentUser,
    run (getAllBookingsHandler ctx req) (fresh user db)
    = responded user db 200 (bookings_payload bookings)
    /\ run (getAllBookingsHandler ctx req') (fresh user db)
       = responded user db 200 (bookings_payload bookings).
Proof.
  intros user. unfold run. split.
  - by rewrite (getAllBookingsHandler_found _ _ _ _ _ Hfound).
  - rewrite Hquery in Hfound.
    by rewrite (getAllBookingsHandler_found _ _ _ _ _ Hfound).
Qed.

Lemma getAllBookingsHandler_same_for_every_caller_witness :
  req_query sorted_request = req_query sorted_request
  /\ svc_getAllBookings tour_listing (locals_queryFilterByTourId tour_listing)
                        (req_query sorted_request)
     = Ok sample_bookings
  /\ run (getAllBookingsHandler tour_listing sorted_request)
         (fresh bob sample_db)
     = responded bob sample_db 200 (bookings_payload sample_bookings).
Proof.
  assert (Hfound : svc_getAllBookings tour_listing
                     (locals_queryFilterByTourId tour_listing)
                     (req_query sorted_request)
                   = Ok sample_bookings) by reflexivity.
  split; [reflexivity|]. split; [exact Hfound|].
  exact (proj1 (getAllBookingsHandler_same_for_every_caller
                  tour_listing sorted_request sorted_request sample_db
                  sample_bookings eq_refl Hfound bob)).
Defined.

(** X11: [getAllBookingsHandler] never throws: when [getAllBookings]
    rejects, the handler logs the error, hands the same error to [next]
    and sends nothing; and it calls [next] in that case only. *)
Theorem getAllBookingsHandler_forwards_failure
    (ctx : ListingContext) (req : Request) (user : CurrentUser)
    (db : BookingService) :
  snd (getAllBookingsHandler ctx req (fresh user db)) = Ok tt
  /\ (forall error,
      svc_getAllBookings ctx (locals_queryFilterByTourId ctx) (req_query req)
      = Throw error ->
      run (getAllBookingsHandler ctx req) (fresh user db)
      = mkSt (mkResponse 200 None user) [Some error] [error] db)
  /\ (st_next (run (getAllBookingsHandler ctx req) (fresh user db)) <> [] ->
      exists error,
        svc_getAllBookings ctx (locals_queryFilterByTourId ctx)
                           (req_query req)
        = Throw error).
Proof.
  unfold run.
  destruct (svc_getAllBookings ctx (locals_queryFilterByTourId ctx)
                               (req_query req)) as [bookings|error] eqn:E.
  - rewrite (getAllBookingsHandler_found _ _ _ _ _ E). by repeat split.
  - rewrite (getAllBookingsHandler_rejected _ _ _ _ _ E).
    split; [done|]. split; [by intros ? [= <-]|eauto].
Qed.

Lemma getAllBookingsHandler_forwards_failure_witness :
  svc_getAllBookings failing_listing
    (locals_queryFilterByTourId failing_listing) (req_query sorted_request)
  = Throw (ThrownError "MongoNetworkError" "connection closed")
  /\ run (getAllBookingsHandler failing_listing sorted_request)
         (fresh admin sample_db)
     = mkSt (mkResponse 200 None admin)
            [Some (ThrownError "MongoNetworkError" "connection closed")]
            [ThrownError "MongoNetworkError" "connection closed"]
            sample_db.
Proof.
  assert (Hfail : svc_getAllBookings failing_listing
                    (locals_queryFilterByTourId failing_listing)
                    (req_query sorted_request)
                  = Throw (ThrownError "MongoNetworkError"
                                       "connection closed")) by reflexivity.
  split; [exact Hfail|].
  exact (proj1 (proj2 (getAllBookingsHandler_forwards_failure
                         failing_listing sorted_request admin sample_db))
           _ Hfail).
Defined.

Lemma bookings_payload_fields (bookings : list Booking) :
  payload_field "status" (bookings_payload bookings) = Some (PString "success")
  /\ payload_field "dataCount" (bookings_payload bookings)
     = Some (PNumber (Z.of_nat (length bookings)))
  /\ (payload_field "data" (bookings_payload bookings)
        ≫= payload_field "bookings")
     = Some (PArray (map PBooking bookings)).
Proof. by repeat split. Qed.

(** [{ status: 'success', dataCount: 0, data: { bookings: [] } }] *)
Lemma bookings_payload_nil :
  bookings_payload []
  = PObject [("status", PString "success");
             ("dataCount", PNumber 0);
             ("data", PObject [("bookings", PArray [])])].
Proof. reflexivity. Qed.

(** X12: when one of the two listings sends a body, the status code is
    200, [status] is ['success'] and [dataCount] is the number of
    elements of [data.bookings]; and when the service resolves to no
    booking at all, each listing answers 200 with [dataCount] 0 and an
    empty array, and calls [next] with no error. *)
Theorem listings_dataCount_counts_bookings
    (ctx : ListingContext) (req : Request) (user : CurrentUser)
    (db : BookingService) :
  (forall (s' : St) (body : Payload),
      s' = run (getMyBookingsHandler req) (fresh user db)
      \/ s' = run (getAllBookingsHandler ctx req) (fresh user db) ->
      res_body (st_res s') = Some body ->
      res_statusCode (st_res s') = 200
      /\ exists elements,
          payload_field "status" body = Some (PString "success")
          /\ (payload_field "data" body ≫= payload_field "bookings")
             = Some (PArray elements)
          /\ payload_field "dataCount" body
             = Some (PNumber (Z.of_nat (length elements))))
  /\ (svc_getMyBookings db (user_id user) = Ok [] ->
      run (getMyBookingsHandler req) (fresh user db)
      = responded user db 200
          (PObject [("status", PString "success");
                    ("dataCount", PNumber 0);
                    ("data", PObject [("bookings", PArray [])])]))
  /\ (svc_getAllBookings ctx (locals_queryFilterByTourId ctx) (req_query req)
      = Ok [] ->
      run (getAllBookingsHandler ctx req) (fresh user db)
      = responded user db 200
          (PObject [("status", PString "success");
                    ("dataCount", PNumber 0);
                    ("data", PObject [("bookings", PArray [])])])).
Proof.
  split; [|split].
  - intros s' body Hrun Hsent.
    assert (res_statusCode (st_res s') = 200
            /\ exists bookings, body = bookings_payload bookings)
      as [Hcode [bookings ->]].
    { destruct Hrun as [-> | ->].
      - destruct (svc_getMyBookings db (user_id user))
          as [bookings|error] eqn:E.
        + rewrite (getMyBookingsHandler_found _ _ _ _ E) in Hsent |- *.
          split; [done|]. exists bookings. simpl in Hsent. congruence.
        + by rewrite (getMyBookingsHandler_rejected _ _ _ _ E) in Hsent.
      - unfold run in Hsent |- *.
        destruct (svc_getAllBookings ctx (locals_queryFilterByTourId ctx)
                                     (req_query req))
          as [bookings|error] eqn:E.
        + rewrite (getAllBookingsHandler_found _ _ _ _ _ E) in Hsent |- *.
          split; [done|]. exists bookings. simpl in Hsent. congruence.
        + by rewrite (getAllBookingsHandler_rejected _ _ _ _ _ E) in Hsent. }
    split; [exact Hcode|]. exists (map PBooking bookings).
    destruct (bookings_payload_fields bookings) as (Hstatus & Hcount & Hdata).
    split; [done|]. split; [done|]. by rewrite length_map.
  - intros Hnone. rewrite <- bookings_payload_nil.
    by apply getMyBookingsHandler_found.
  - intros Hnone. rewrite <- bookings_payload_nil. unfold run.
    by rewrite (getAllBookingsHandler_found _ _ _ _ _ Hnone).
Qed.

(** X12 on the sample data: the listing of a tour with two bookings has
    [dataCount] 2; the admin, who booked nothing, gets a 200 with
    [dataCount] 0 and an empty array. *)
Lemma listings_dataCount_counts_bookings_witness :
  res_body (st_res (run (getAllBookingsHandler tour_listing sorted_request)
                        (fresh admin sample_db)))
  = Some (bookings_payload sample_bookings)
  /\ svc_getMyBookings sample_db (user_id admin) = Ok []
  /\ (res_statusCode
        (st_res (run (getAllBookingsHandler tour_listing sorted_request)
                     (fresh admin sample_db))) = 200
      /\ exists elements,
          payload_field "status" (bookings_payload sample_bookings)
          = Some (PString "success")
          /\ (payload_field "data" (bookings_payload sample_bookings)
                ≫= payload_field "bookings")
             = Some (PArray elements)
          /\ payload_field "dataCount" (bookings_payload sample_bookings)
             = Some (PNumber (Z.of_nat (length elements))))
  /\ payload_field "dataCount" (bookings_payload sample_bookings)
     = Some (PNumber 2)
  /\ run (getMyBookingsHandler sorted_request) (fresh admin sample_db)
     = responded admin sample_db 200
         (PObject [("status", PString "success");
                   ("dataCount", PNumber 0);
                   ("data", PObject [("bookings", PArray [])])]).
Proof.
  assert (Hsent : res_body (st_res (run (getAllBookingsHandler
                                           tour_listing sorted_request)
                                        (fresh admin sample_db)))
                  = Some (bookings_payload sample_bookings)) by reflexivity.
  assert (Hnone : svc_getMyBookings sample_db (user_id admin) = Ok [])
    by reflexivity.
  split; [exact Hsent|]. split; [exact Hnone|].
  destruct (listings_dataCount_counts_bookings
              tour_listing sorted_request admin sample_db)
    as (Hcount & Hempty & _).
  split; [|split].
  - exact (Hcount _ _ (or_intror eq_refl) Hsent).
  - reflexivity.
  - exact (Hempty Hnone).
Defined.

(** ** [getStripeCheckoutSessionHandler] *)

(** X13: for a tour that [getTour] does not find, the handler hands the
    404 [AppError] 'Tour not found' to [next], sends nothing and returns
    normally, and Stripe is left out of it: the outcome is the same with
    any other Stripe service. *)
Theorem getStripeCheckoutSessionHandler_unknown_tour
    {Tour : Type} (svc : CheckoutServices Tour)
    (stripe : Request -> Tour -> CurrentUser -> Result Payload)
    (req : Request) (user : CurrentUser) (db : BookingService)
    (Hmissing : svc_getTour svc (req_params req !! "tourId") = Ok None) :
  getStripeCheckoutSessionHandler svc req (fresh user db)
  = (forwarded user db (mkAppError 404 "Tour not found"), Ok tt)
  /\ getStripeCheckoutSessionHandler
       (mkCheckoutServices (svc_getTour svc) stripe) req (fresh user db)
     = getStripeCheckoutSessionHandler svc req (fresh user db).
Proof.
  unfold getStripeCheckoutSessionHandler, bind, await, locals_user, fresh;
    simpl.
  by rewrite Hmissing.
Qed.

Lemma getStripeCheckoutSessionHandler_unknown_tour_witness :
  svc_getTour sample_checkout (req_params unknown_tour_request !! "tourId")
  = Ok None
  /\ getStripeCheckoutSessionHandler sample_checkout unknown_tour_request
       (fresh alice sample_db)
     = (forwarded alice sample_db (mkAppError 404 "Tour not found"), Ok tt).
Proof.
  assert (Hmissing : svc_getTour sample_checkout
                       (req_params unknown_tour_request !! "tourId")
                     = Ok None) by reflexivity.
  split; [exact Hmissing|].
  exact (proj1 (getStripeCheckoutSessionHandler_unknown_tour
                  sample_checkout (svc_getStripeCheckoutSession sample_checkout)
                  unknown_tour_request alice sample_db Hmissing)).
Defined.

(** X14: the handler has no [catch]: when [getTour] rejects, or when the
    tour is found and Stripe rejects, the handler itself throws that
    error, from whatever state, and has then neither called [next] nor
    logged nor sent anything. *)
Theorem getStripeCheckoutSessionHandler_failure_escapes
    {Tour : Type} (svc : CheckoutServices Tour) (req : Request) (s : St)
    (error : Thrown)
    (Hfail : svc_getTour svc (req_params req !! "tourId") = Throw error
             \/ exists tour,
                 svc_getTour svc (req_params req !! "tourId") = Ok (Some tour)
                 /\ svc_getStripeCheckoutSession svc req tour
                      (res_locals_user (st_res s))
                    = Throw error) :
  getStripeCheckoutSessionHandler svc req s = (s, Throw error).
Proof.
  unfold getStripeCheckoutSessionHandler, bind, await, locals_user; simpl.
  destruct Hfail as [->|(tour & -> & Hstripe)]; [done|].
  simpl. by rewrite Hstripe.
Qed.

Lemma getStripeCheckoutSessionHandler_failure_escapes_witness :
  (exists tour,
      svc_getTour stripe_down_checkout
        (req_params sea_explorer_request !! "tourId") = Ok (Some tour)
      /\ svc_getStripeCheckoutSession stripe_down_checkout
           sea_explorer_request tour
           (res_locals_user (st_res (fresh alice sample_db)))
         = Throw (ThrownError "StripeConnectionError" "timeout"))
  /\ getStripeCheckoutSessionHandler stripe_down_checkout sea_explorer_request
       (fresh alice sample_db)
     = (fresh alice sample_db,
        Throw (ThrownError "StripeConnectionError" "timeout")).
Proof.
  assert (Hfail : exists tour,
             svc_getTour stripe_down_checkout
               (req_params sea_explorer_request !! "tourId") = Ok (Some tour)
             /\ svc_getStripeCheckoutSession stripe_down_checkout
                  sea_explorer_request tour
                  (res_locals_user (st_res (fresh alice sample_db)))
                = Throw (ThrownError "StripeConnectionError" "timeout")).
  { exists "The Sea Explorer". split; reflexivity. }
  split; [exact Hfail|].
  exact (getStripeCheckoutSessionHandler_failure_escapes
           stripe_down_checkout sea_explorer_request (fresh alice sample_db)
           _ (or_intror Hfail)).
Defined.

(** X15: a body that the handler sends is always a 200 success payload
    whose [data.stripeSession] is the session that Stripe returned for
    this request, the tour that [getTour] found for [params.tourId] and
    the current user; [next] is then not called. *)
Theorem getStripeCheckoutSessionHandler_sends_the_session
    {Tour : Type} (svc : CheckoutServices Tour) (req : Request)
    (user : CurrentUser) (db : BookingService) (body : Payload)
    (Hsent : res_body (st_res (run (getStripeCheckoutSessionHandler svc req)
                                   (fresh user db)))
             = Some body) :
  exists tour stripeSession,
    svc_getTour svc (req_params req !! "tourId") = Ok (Some tour)
    /\ svc_getStripeCheckoutSession svc req tour user = Ok stripeSession
    /\ payload_field "status" body = Some (PString "success")
    /\ (payload_field "data" body ≫= payload_field "stripeSession")
       = Some stripeSession
    /\ run (getStripeCheckoutSessionHandler svc req) (fresh user db)
       = responded user db 200 body.
Proof.
  revert Hsent.
  unfold run, getStripeCheckoutSessionHandler, bind, await, locals_user,
    fresh; simpl.
  destruct (svc_getTour svc _) as [[tour|]|error]; simpl; [|done..].
  destruct (svc_getStripeCheckoutSession svc req tour user)
    as [stripeSession|error] eqn:E; simpl; [|done].
  intros [= <-]. by exists tour, stripeSession.
Qed.

Lemma getStripeCheckoutSessionHandler_sends_the_session_witness :
  res_body (st_res (run (getStripeCheckoutSessionHandler
                           sample_checkout sea_explorer_request)
                        (fresh alice sample_db)))
  = Some (stripe_payload (PObject [("id", PString "cs_test_a1")]))
  /\ run (getStripeCheckoutSessionHandler sample_checkout sea_explorer_request)
         (fresh alice sample_db)
     = responded alice sample_db 200
         (stripe_payload (PObject [("id", PString "cs_test_a1")])).
Proof.
  assert (Hsent : res_body (st_res (run (getStripeCheckoutSessionHandler
                                           sample_checkout
                                           sea_explorer_request)
                                        (fresh alice sample_db)))
                  = Some (stripe_payload
                            (PObject [("id", PString "cs_test_a1")])))
    by reflexivity.
  split; [exact Hsent|].
  destruct (getStripeCheckoutSessionHandler_sends_the_session
              sample_checkout sea_explorer_request alice sample_db _ Hsent)
    as (tour & stripeSession & _ & _ & _ & _ & Hrun).
  exact Hrun.
Defined.

(** ** The user service, further *)

(** X16: when [User.create] resolves, [createUser] returns the JSON of
    the new document without its [password] and with every other
    property as the document has it. *)
Theorem createUser_returns_document_without_password
    (User_create : JsObject -> Result UserDocument)
    (inputData : JsObject) (newUser : UserDocument)
    (Hcreated : User_create inputData = Ok newUser) :
  exists object,
    createUser User_create inputData = Ok object
    /\ object !! "password" = None
    /\ forall key, key <> "password" ->
                   object !! key = doc_fields newUser !! key.
Proof.
  exists (delete "password" (doc_fields newUser)).
  unfold createUser, catch, mbind, Result_bind. rewrite Hcreated.
  split; [done|]. split; [apply lookup_delete_eq|].
  intros key Hkey. by apply lookup_delete_ne.
Qed.

Lemma createUser_returns_document_without_password_witness :
  storing_create signup_input
  = Ok (mkUserDocument signup_input (fun _ => Ok false))
  /\ exists object,
      createUser storing_create signup_input = Ok object
      /\ object !! "password" = None
      /\ forall key, key <> "password" ->
                     object !! key = signup_input !! key.
Proof.
  assert (Hcreated : storing_create signup_input
                     = Ok (mkUserDocument signup_input (fun _ => Ok false)))
    by reflexivity.
  split; [exact Hcreated|].
  exact (createUser_returns_document_without_password
           storing_create signup_input _ Hcreated).
Defined.

(** X17: [createUser] throws exactly when [User.create] rejects, and
    what it throws is never a bare [Error]: it is an [AppError] with
    status code 409, or a value that is not an [Error] at all. *)
Theorem createUser_throws_409_or_non_error
    (User_create : JsObject -> Result UserDocument)
    (inputData : JsObject) (thrown : Thrown)
    (Hthrown : createUser User_create inputData = Throw thrown) :
  (exists err, User_create inputData = Throw err)
  /\ ((exists msg, thrown = ThrownAppError (mkAppError 409 msg))
      \/ instanceofError thrown = false).
Proof.
  revert Hthrown. unfold createUser, catch, mbind, Result_bind.
  destruct (User_create inputData) as [newUser|err]; [done|].
  destruct (instanceofError err) eqn:E; intros [= <-]; eauto.
Qed.

Lemma createUser_throws_409_or_non_error_witness :
  createUser duplicate_create signup_input
  = Throw (ThrownAppError (mkAppError 409 "E11000 duplicate key error"))
  /\ (exists err, duplicate_create signup_input = Throw err).
Proof.
  assert (Hthrown : createUser duplicate_create signup_input
                    = Throw (ThrownAppError
                               (mkAppError 409 "E11000 duplicate key error")))
    by reflexivity.
  split; [exact Hthrown|].
  exact (proj1 (createUser_throws_409_or_non_error
                  duplicate_create signup_input _ Hthrown)).
Defined.

(** X18: [checkPassword] returns a user object exactly when a user with
    the email exists and [comparePassword] resolves to true; the object
    then has every stored property of that user but [password] and
    [comparePassword]. *)
Theorem checkPassword_returns_user_iff_valid
    (User_findOne : string -> Result (option UserDocument))
    (email password : string) (object : JsObject) :
  checkPassword User_findOne email password = Ok (Some object)
  <-> exists user,
      User_findOne email = Ok (Some user)
      /\ doc_comparePassword user password = Ok true
      /\ object !! "password" = None
      /\ object !! "comparePassword" = None
      /\ forall key, key <> "password" -> key <> "comparePassword" ->
                     object !! key = doc_fields user !! key.
Proof.
  split.
  - unfold checkPassword, mbind, Result_bind.
    destruct (User_findOne email) as [[user|]|error]; [|done..].
    destruct (doc_comparePassword user password) as [[|]|error] eqn:E;
      [|done..].
    unfold toObject. intros [= <-]. exists user.
    split; [done|]. split; [done|]. split; [|split].
    + by rewrite lookup_delete_ne, lookup_delete_eq.
    + by rewrite lookup_delete_eq.
    + intros key Hp Hc. by rewrite !lookup_delete_ne.
  - intros (user & Hfound & Hvalid & Hp & Hc & Hrest).
    rewrite (checkPassword_success _ _ _ _ Hfound Hvalid).
    do 2 f_equal. apply map_eq. intros key.
    destruct (decide (key = "comparePassword")) as [->|Hkc].
    { by rewrite lookup_delete_eq, Hc. }
    destruct (decide (key = "password")) as [->|Hkp].
    { by rewrite lookup_delete_ne, lookup_delete_eq, Hp. }
    by rewrite !lookup_delete_ne, Hrest.
Qed.

Lemma checkPassword_returns_user_iff_valid_witness :
  checkPassword sample_findOne "jonas@example.com" "test1234"
  = Ok (Some {[ "email" := JsString "jonas@example.com";
                "name" := JsString "Jonas" ]})
  /\ exists user,
      sample_findOne "jonas@example.com" = Ok (Some user)
      /\ doc_comparePassword user "test1234" = Ok true.
Proof.
  assert (Hok : checkPassword sample_findOne "jonas@example.com" "test1234"
                = Ok (Some {[ "email" := JsString "jonas@example.com";
                              "name" := JsString "Jonas" ]}))
    by (vm_compute; reflexivity).
  split; [exact Hok|].
  destruct (proj1 (checkPassword_returns_user_iff_valid
                     sample_findOne "jonas@example.com" "test1234" _) Hok)
    as (user & Hfound & Hvalid & _).
  exists user. by split.
Defined.

(** X19: [checkPassword] turns no failure of the database or of the hash
    comparison into [null]: when [User.findOne] rejects, or when the user
    is found and [comparePassword] rejects, [checkPassword] rejects with
    the same error. *)
Theorem checkPassword_rejections_escape
    (User_findOne : string -> Result (option UserDocument))
    (email password : string) (error : Thrown)
    (Hfail : User_findOne email = Throw error
             \/ exists user,
                 User_findOne email = Ok (Some user)
                 /\ doc_comparePassword user password = Throw error) :
  checkPassword User_findOne email password = Throw error.
Proof.
  unfold checkPassword, mbind, Result_bind.
  destruct Hfail as [->|(user & -> & ->)]; done.
Qed.

Lemma checkPassword_rejections_escape_witness :
  failing_findOne "jonas@example.com"
  = Throw (ThrownError "MongoNetworkError" "connection closed")
  /\ checkPassword failing_findOne "jonas@example.com" "test1234"
     = Throw (ThrownError "MongoNetworkError" "connection closed").
Proof.
  assert (Hfail : failing_findOne "jonas@example.com"
                  = Throw (ThrownError "MongoNetworkError"
                                       "connection closed")) by reflexivity.
  split; [exact Hfail|].
  exact (checkPassword_rejections_escape
           failing_findOne "jonas@example.com" "test1234" _
           (or_introl Hfail)).
Defined.
